(** * symforce/opt/fmt_compat.h

    A shallow embedding of the fmt 11.x compatibility header of symforce.
    The header consists of one concept and two constrained partial
    specializations:

    - [EigenDerived] and [fmt::range_format_kind<T, char>], which switch the
      range formatter of fmt/ranges.h off for Eigen expression types;
    - [fmt::formatter<T, char>], which hands every remaining class type with
      an [operator<<] to [fmt::ostream_formatter].

    Both are compile-time predicates over a type [T].  A type is therefore
    represented by the facts the requires-clauses can observe about it, and a
    partial specialization by a function that either overrides the primary
    template or leaves it alone. *)

From Stdlib Require Import Bool List String Ascii ZArith.
Import ListNotations.
Local Open Scope string_scope.

Set Implicit Arguments.

(** ** Streams *)

(** [std::ios_base::basefield]. *)
Inductive radix := dec | oct | hex.

(** The part of a [std::ostream] an [operator<<] can read and change: the
    characters written so far and the formatting state that the next
    insertion picks up. *)
Record ostream := {
  str : string;
  basefield : radix;
  width : nat;
  fill : ascii
}.

(** A stream as [std::basic_ios::init] leaves it, over an empty buffer. *)
Definition fresh_ostream : ostream :=
  {| str := ""; basefield := dec; width := 0; fill := " "%char |}.

(** ** Types *)

(** The primary type categories of <type_traits> that the header's comments
    name; [std::is_class_v] holds for the last one only. *)
Inductive type_category :=
| arithmetic_type
| enumeration_type
| pointer_type
| array_type
| union_type
| class_type.

(** Which objects an operation of a type accepts.  [const_access]: a
    const-qualified member function, or a parameter [const T&]; it accepts
    const and mutable objects alike.  [mutable_only]: a member function
    without const, or a parameter [T&]. *)
Inductive access := const_access | mutable_only.

(** The character types of a formatting context. *)
Inductive Char := char | wchar_t | char8_t | char16_t | char32_t.

(** [fmt::range_format]. *)
Module range_format.

Inductive t := disabled | map | set | sequence | string | debug_string.

Definition is_disabled (k : t) : bool :=
  match k with
  | disabled => true
  | _ => false
  end.

End range_format.

(** A C++ type [T], as far as the header can tell types apart.  The nominal
    part (name, base classes) is recorded although no constraint of the header
    reads it. *)
Record cpp_type := {
  type_name : string;
  bases : list string;
  category : type_category;
  (** the values of [T] *)
  object : Type;
  (** [std::is_convertible_v<const T&, fmt::string_view>] *)
  convertible_to_string_view : bool;
  (** the member function [derived()], accessible and callable without
      arguments, if [T] has one *)
  derived : option access;
  (** [operator<<(std::ostream&, T)], if there is one, with what it does to
      the stream *)
  stream_insertion : option (access * (object -> ostream -> ostream));
  (** [begin()]/[end()], if [T] has them: the elements, each as its own
      formatter prints it *)
  range_elements : option (object -> list String.string)
}.

(** [std::is_class_v<T>]. *)
Definition is_class_v (T : cpp_type) : bool :=
  match category T with
  | class_type => true
  | _ => false
  end.

(** Whether an operation with the given access can be used on a [const T&]. *)
Definition accepts_const (a : access) : bool :=
  match a with
  | const_access => true
  | mutable_only => false
  end.

(** ** 1.  The range formatter is disabled for Eigen types *)

(** [concept EigenDerived = requires(const T& t) { t.derived(); };] *)
Definition EigenDerived (T : cpp_type) : bool :=
  match derived T with
  | Some a => accepts_const a
  | None => false
  end.

Section RangeFormatKind.

(** The primary template [fmt::range_format_kind<T, Char>] of fmt/ranges.h,
    which is not part of the header. *)
Variable primary_range_format_kind : cpp_type -> Char -> range_format.t.

(** [template <EigenDerived T> struct fmt::range_format_kind<T, char>
    : std::integral_constant<fmt::range_format, fmt::range_format::disabled> {};]

    The value of the trait once the header is included: the partial
    specialization where it matches, the primary template elsewhere. *)
Definition range_format_kind (T : cpp_type) (C : Char) : range_format.t :=
  match C with
  | char =>
      if EigenDerived T then range_format.disabled
      else primary_range_format_kind T char
  | _ => primary_range_format_kind T C
  end.

End RangeFormatKind.

(** ** 2.  The ostream-based formatter for class types with operator<< *)

(** [requires(std::ostream& os, const T& t) { os << t; }]: the insertion that
    the expression resolves to, if the expression is well-formed. *)
Definition insertion_on_const (T : cpp_type)
  : option (object T -> ostream -> ostream) :=
  match stream_insertion T with
  | Some (a, ins) => if accepts_const a then Some ins else None
  | None => None
  end.

Definition insertable (T : cpp_type) : bool :=
  match insertion_on_const T with
  | Some _ => true
  | None => false
  end.

(** The requires-clause of the partial specialization:
    [std::is_class_v<T>
     && (!std::is_convertible_v<const T&, fmt::string_view>)
     && requires(std::ostream& os, const T& t) { os << t; }] *)
Definition formatter_requires (T : cpp_type) : bool :=
  is_class_v T && negb (convertible_to_string_view T) && insertable T.

(** The output side of a [fmt::format_context]: the text written so far. *)
Record format_context := { out : String.string }.

(** What a formatter for [T] is to fmt: its [format] member function. *)
Definition formatter_of (T : cpp_type) : Type :=
  object T -> format_context -> format_context.

(** Modelled from the spec: [fmt::ostream_formatter], the stream-forwarding
    formatter that fmt/ostream.h supplies and that is not part of the header.
    It writes the value into a stream of its own and yields the resulting text
    as the formatted output. *)
Definition ostream_formatter (A : Type) (insert : A -> ostream -> ostream)
    (value : A) (ctx : format_context) : format_context :=
  let output := insert value fresh_ostream in
  {| out := out ctx ++ str output |}.

(** [template <typename T> requires ...
    struct fmt::formatter<T, char> : fmt::ostream_formatter {};]

    The formatter the header provides for [T] in a [Char] context: none
    unless the context is [char] and the requires-clause holds. *)
Definition formatter (T : cpp_type) (C : Char) : option (formatter_of T) :=
  match C with
  | char =>
      if formatter_requires T then
        match insertion_on_const T with
        | Some ins => Some (ostream_formatter ins)
        | None => None
        end
      else None
  | _ => None
  end.

(** [fmt::format("{}", value)] through the header's formatter: the text it
    writes into an empty context, if the header provides a formatter. *)
Definition format_with_formatter (T : cpp_type) (value : object T)
  : option String.string :=
  match formatter T char with
  | Some f => Some (out (f value {| out := "" |}))
  | None => None
  end.

(** Writing a value directly to a stream and capturing the result:
    [std::ostringstream ss; ss << value; return ss.str();] with the value
    taken as [const T&].  Not defined when the insertion is ill-formed. *)
Definition stream_and_capture (T : cpp_type) (value : object T)
  : option String.string :=
  match insertion_on_const T with
  | Some ins => Some (str (ins value fresh_ostream))
  | None => None
  end.

(** ** Formatting several values in a row *)

(** One formatting request: a type and a value of it. *)
Definition call : Type := { T : cpp_type & object T }.

Definition call_of (T : cpp_type) (value : object T) : call :=
  existT _ T value.

(** A request served by the header's formatter, writing into [ctx]. *)
Definition format_call (c : call) (ctx : format_context)
  : option format_context :=
  match formatter (projT1 c) char with
  | Some f => Some (f (projT2 c) ctx)
  | None => None
  end.

(** Requests served one after the other into the same context, as
    consecutive [fmt::format_to] calls on one output do. *)
Fixpoint format_all (calls : list call) (ctx : format_context)
  : option format_context :=
  match calls with
  | [] => Some ctx
  | c :: rest =>
      match format_call c ctx with
      | Some ctx' => format_all rest ctx'
      | None => None
      end
  end.

(** The text of a request formatted on its own. *)
Definition text_of (c : call) : String.string :=
  match format_with_formatter (projT1 c) (projT2 c) with
  | Some s => s
  | None => ""
  end.

Fixpoint texts_of (calls : list call) : String.string :=
  match calls with
  | [] => ""
  | c :: rest => text_of c ++ texts_of rest
  end.

(** ** The formatter fmt selects *)

(** The formatters fmt has of its own for the types it handles natively. *)
Inductive builtin := arithmetic_formatter | pointer_formatter | string_formatter.

(** A formatter specialization that can match a type: one of fmt's own, the
    range formatter of fmt/ranges.h, or the header's. *)
Inductive rule :=
| builtin_rule (b : builtin)
| range_rule
| ostream_rule.

Inductive resolution :=
| no_formatter
| selected (r : rule)
| ambiguous.

(** Modelled from the spec: the choice among the registered formatter
    specializations that match a type, which is made by fmt and the compiler
    and not by the header.  A type that nothing matches has no formatter (a
    compile-time failure at the call site), and two specializations matching
    the same type are an ambiguity error. *)
Definition resolve (matching : list rule) : resolution :=
  match matching with
  | [] => no_formatter
  | [r] => selected r
  | _ :: _ :: _ => ambiguous
  end.

(** Modelled from the spec: the range formatter of fmt/ranges.h matches a
    type unless its range classification is [disabled]. *)
Definition range_rules (kind : range_format.t) : list rule :=
  if range_format.is_disabled kind then [] else [range_rule].

(** Modelled from the spec: the bracketed sequence representation the range
    formatter gives a type with [begin()]/[end()]. *)
Definition range_text (T : cpp_type) (value : object T) : String.string :=
  match range_elements T with
  | Some elements => "[" ++ String.concat ", " (elements value) ++ "]"
  | None => ""
  end.

Section Host.

(** What fmt contributes and the header does not define: the primary range
    classification, the native formatters matching a type in a [char]
    context, and the text a native formatter produces. *)
Variable primary_range_format_kind : cpp_type -> Char -> range_format.t.
Variable builtin_formatters : cpp_type -> list builtin.
Variable builtin_format : forall T : cpp_type, builtin -> object T -> String.string.

(** The specializations matching [T] before the header is included. *)
Definition matching_without_header (T : cpp_type) : list rule :=
  List.map builtin_rule (builtin_formatters T)
  ++ range_rules (primary_range_format_kind T char).

(** The specializations matching [T] with the header included. *)
Definition matching (T : cpp_type) : list rule :=
  List.map builtin_rule (builtin_formatters T)
  ++ range_rules (range_format_kind primary_range_format_kind T char)
  ++ match formatter T char with
     | Some _ => [ostream_rule]
     | None => []
     end.

Definition selected_without_header (T : cpp_type) : resolution :=
  resolve (matching_without_header T).

Definition selected_formatter (T : cpp_type) : resolution :=
  resolve (matching T).

(** The text of [fmt::format("{}", value)] under a resolution; [None] is a
    compile-time failure. *)
Definition format_by (r : resolution) (T : cpp_type) (value : object T)
  : option String.string :=
  match r with
  | selected (builtin_rule b) => Some (builtin_format T b value)
  | selected range_rule => Some (range_text T value)
  | selected ostream_rule => format_with_formatter T value
  | no_formatter | ambiguous => None
  end.

Definition format (T : cpp_type) (value : object T) : option String.string :=
  format_by (selected_formatter T) T value.

Definition format_without_header (T : cpp_type) (value : object T)
  : option String.string :=
  format_by (selected_without_header T) T value.

End Host.

(** ** Insertions of the standard library, for the example types *)

Fixpoint replicate (n : nat) (c : ascii) : String.string :=
  match n with
  | O => ""
  | S k => String c (replicate k c)
  end.

(** Formatted output of a character sequence: padded with the fill character
    up to the field width, after which the width is reset. *)
Definition write (s : String.string) (os : ostream) : ostream :=
  {| str := str os ++ replicate (width os - String.length s) (fill os) ++ s;
     basefield := basefield os;
     width := 0;
     fill := fill os |}.

(** [os << std::setw(n)], [os << std::dec], [os << std::hex], ... *)
Definition setw (n : nat) (os : ostream) : ostream :=
  {| str := str os; basefield := basefield os; width := n; fill := fill os |}.

Definition setbase (b : radix) (os : ostream) : ostream :=
  {| str := str os; basefield := b; width := width os; fill := fill os |}.

Definition digit (d : N) : ascii :=
  ascii_of_N (if (d <? 10)%N then 48 + d else 87 + d).

Fixpoint digits_from (fuel : nat) (base n : N) (acc : String.string)
  : String.string :=
  let acc' := String (digit (n mod base)) acc in
  match fuel with
  | O => acc'
  | S k => if (n / base =? 0)%N then acc' else digits_from k base (n / base) acc'
  end.

Definition digits (base n : N) : String.string :=
  digits_from (N.size_nat n) base n "".

(** [os << int]: signed in decimal, the 32-bit two's complement pattern in
    octal and hexadecimal. *)
Definition insert_int (z : Z) (os : ostream) : ostream :=
  let pattern := Z.to_N (z mod 2 ^ 32) in
  write
    match basefield os with
    | dec => if (z <? 0)%Z then "-" ++ digits 10 (Z.to_N (- z)) else digits 10 (Z.to_N z)
    | oct => digits 8 pattern
    | hex => digits 16 pattern
    end
    os.

Definition endl : String.string := String "010"%char "".

(** ** Example types *)

(** [struct Point { int x, y; };] with
    [os << "(" << p.x << ", " << p.y << ")"]. *)
Definition Point : cpp_type :=
  {| type_name := "Point";
     bases := [];
     category := class_type;
     object := Z * Z;
     convertible_to_string_view := false;
     derived := None;
     stream_insertion :=
       Some (const_access,
             fun p os =>
               write ")" (insert_int (snd p) (write ", " (insert_int (fst p) (write "(" os)))));
     range_elements := None |}.

(** A type whose insertion leaves the stream in hexadecimal mode:
    [os << std::hex << h.id]. *)
Definition HexId : cpp_type :=
  {| type_name := "HexId";
     bases := [];
     category := class_type;
     object := Z;
     convertible_to_string_view := false;
     derived := None;
     stream_insertion := Some (const_access, fun id os => insert_int id (setbase hex os));
     range_elements := None |}.

Fixpoint insert_row (row : list Z) (os : ostream) : ostream :=
  match row with
  | [] => os
  | [x] => insert_int x os
  | x :: rest => insert_row rest (write " " (insert_int x os))
  end.

Fixpoint insert_rows (rows : list (list Z)) (os : ostream) : ostream :=
  match rows with
  | [] => os
  | [r] => insert_row r os
  | r :: rest => insert_rows rest (write endl (insert_row r os))
  end.

Definition int_elements (rows : list (list Z)) : list String.string :=
  List.map (fun x => str (insert_int x fresh_ostream)) (List.concat rows).

(** A stand-in for an Eigen matrix: it has [derived() const] and
    [begin()]/[end()] over its coefficients, and its [operator<<] prints one
    row per line. *)
Definition Matrix : cpp_type :=
  {| type_name := "Matrix";
     bases := ["MatrixBase<Matrix>"];
     category := class_type;
     object := list (list Z);
     convertible_to_string_view := false;
     derived := Some const_access;
     stream_insertion := Some (const_access, insert_rows);
     range_elements := Some int_elements |}.

Definition identity2 : object Matrix := [[1; 0]; [0; 1]]%Z.

(** A type that has nothing to do with linear algebra and no base class, but
    a member [derived() const]. *)
Definition Widget : cpp_type :=
  {| type_name := "Widget";
     bases := [];
     category := class_type;
     object := unit;
     convertible_to_string_view := false;
     derived := Some const_access;
     stream_insertion := None;
     range_elements := None |}.

(** A class whose [derived()] is not const and whose [operator<<] takes a
    [Legacy&]. *)
Definition Legacy : cpp_type :=
  {| type_name := "Legacy";
     bases := [];
     category := class_type;
     object := Z;
     convertible_to_string_view := false;
     derived := Some mutable_only;
     stream_insertion := Some (mutable_only, insert_int);
     range_elements := Some (fun x => [str (insert_int x fresh_ostream)]) |}.

(** [std::string]. *)
Definition std_string : cpp_type :=
  {| type_name := "std::string";
     bases := [];
     category := class_type;
     object := String.string;
     convertible_to_string_view := true;
     derived := None;
     stream_insertion := Some (const_access, write);
     range_elements :=
       Some (fun s => List.map (fun c => String c "") (list_ascii_of_string s)) |}.

(** [int]. *)
Definition int : cpp_type :=
  {| type_name := "int";
     bases := [];
     category := arithmetic_type;
     object := Z;
     convertible_to_string_view := false;
     derived := None;
     stream_insertion := Some (const_access, insert_int);
     range_elements := None |}.

(** [enum class Color { red, green, blue };] with a stream operator that
    writes the enumerator's number. *)
Definition Color : cpp_type :=
  {| type_name := "Color";
     bases := [];
     category := enumeration_type;
     object := Z;
     convertible_to_string_view := false;
     derived := None;
     stream_insertion := Some (const_access, insert_int);
     range_elements := None |}.

(** An expression type with [derived() const] and [begin()]/[end()] over its
    coefficients, but no stream operator. *)
Definition Coefficients : cpp_type :=
  {| type_name := "Coefficients";
     bases := [];
     category := class_type;
     object := list Z;
     convertible_to_string_view := false;
     derived := Some const_access;
     stream_insertion := None;
     range_elements :=
       Some (List.map (fun x => str (insert_int x fresh_ostream))) |}.

(** A container with [begin()]/[end()] and a stream operator of its own that
    writes its points one after the other; it has no [derived()]. *)
Definition Polyline : cpp_type :=
  {| type_name := "Polyline";
     bases := [];
     category := class_type;
     object := list Z;
     convertible_to_string_view := false;
     derived := None;
     stream_insertion := Some (const_access, insert_row);
     range_elements :=
       Some (List.map (fun x => str (insert_int x fresh_ostream))) |}.

(** An instance of what fmt contributes, for the examples: a type with
    [begin()]/[end()] that is not string-like is a sequence; arithmetic types,
    pointers and string-like types have a native formatter. *)
Definition fmt_range_format_kind (T : cpp_type) (C : Char) : range_format.t :=
  if convertible_to_string_view T then range_format.disabled
  else match range_elements T with
       | Some _ => range_format.sequence
       | None => range_format.disabled
       end.

Definition fmt_builtin_formatters (T : cpp_type) : list builtin :=
  match category T with
  | arithmetic_type => [arithmetic_formatter]
  | pointer_type => [pointer_formatter]
  | _ => if convertible_to_string_view T then [string_formatter] else []
  end.

Definition fmt_builtin_format (T : cpp_type) (b : builtin) (value : object T)
  : String.string :=
  match stream_and_capture T value with
  | Some s => s
  | None => ""
  end.

(** Values inserted one after the other into one shared stream, the way
    [os << a << b] does; the counterpart of [format_all] without a formatter
    in between. *)
Fixpoint insert_all (calls : list call) (os : ostream) : option ostream :=
  match calls with
  | [] => Some os
  | c :: rest =>
      match insertion_on_const (projT1 c) with
      | Some ins => insert_all rest (ins (projT2 c) os)
      | None => None
      end
  end.

(** A request the header's formatter serves. *)
Definition served (c : call) : Prop := formatter_requires (projT1 c) = true.

(** * Properties *)

(** ** Strings *)

Lemma append_nil_r (s : String.string) : s ++ "" = s.
Proof. induction s as [|c s IH]; simpl; [reflexivity | now rewrite IH]. Qed.

Lemma append_assoc (a b c : String.string) : (a ++ b) ++ c = a ++ b ++ c.
Proof. induction a as [|x a IH]; simpl; [reflexivity | now rewrite IH]. Qed.

(** ** The requires-clauses *)

Lemma EigenDerived_iff (T : cpp_type) :
  EigenDerived T = true <-> derived T = Some const_access.
Proof.
  unfold EigenDerived.
  destruct (derived T) as [[|]|]; simpl; split; congruence.
Qed.

Lemma insertion_on_const_iff (T : cpp_type) (ins : object T -> ostream -> ostream) :
  insertion_on_const T = Some ins <-> stream_insertion T = Some (const_access, ins).
Proof.
  unfold insertion_on_const.
  destruct (stream_insertion T) as [[[|] ins']|]; simpl; split; congruence.
Qed.

Lemma formatter_requires_iff (T : cpp_type) :
  formatter_requires T = true <->
  is_class_v T = true /\ convertible_to_string_view T = false /\ insertable T = true.
Proof.
  unfold formatter_requires.
  rewrite !andb_true_iff, negb_true_iff. tauto.
Qed.

Lemma formatter_of_requires (T : cpp_type) :
  formatter_requires T = true ->
  exists ins, insertion_on_const T = Some ins
              /\ formatter T char = Some (ostream_formatter ins).
Proof.
  intros Hreq. unfold formatter. rewrite Hreq.
  apply formatter_requires_iff in Hreq. destruct Hreq as (_ & _ & Hins).
  unfold insertable in Hins.
  destruct (insertion_on_const T) as [ins|]; [|discriminate].
  exists ins. split; reflexivity.
Qed.

Lemma formatter_none_iff (T : cpp_type) :
  formatter T char = None <-> formatter_requires T = false.
Proof.
  split.
  - intros Hnone. destruct (formatter_requires T) eqn:Hreq; [|reflexivity].
    destruct (formatter_of_requires T Hreq) as (ins & _ & Hf). congruence.
  - intros Hreq. unfold formatter. now rewrite Hreq.
Qed.

(** X8.  The header's formatter is a specialization for [char]: in every
    other character context the header provides no formatter, for any type. *)
Lemma formatter_other_char (T : cpp_type) (C : Char) :
  C <> char -> formatter T C = None.
Proof. destruct C; simpl; congruence. Qed.

Lemma formatter_some_requires (T : cpp_type) :
  (exists f, formatter T char = Some f) -> formatter_requires T = true.
Proof.
  intros [f Hf]. destruct (formatter_requires T) eqn:Hreq; [reflexivity|].
  apply formatter_none_iff in Hreq. congruence.
Qed.

(** ** The formatter's text *)

Lemma format_call_served (c : call) (ctx : format_context) :
  served c -> format_call c ctx = Some {| out := out ctx ++ text_of c |}.
Proof.
  destruct c as [T v]. unfold served, format_call, text_of, format_with_formatter.
  cbn [projT1 projT2]. intros Hreq.
  destruct (formatter_of_requires T Hreq) as (ins & _ & ->).
  reflexivity.
Qed.

Lemma texts_of_app (l1 l2 : list call) :
  texts_of (l1 ++ l2) = texts_of l1 ++ texts_of l2.
Proof.
  induction l1 as [|c l1 IH]; simpl; [reflexivity|].
  now rewrite IH, append_assoc.
Qed.

Lemma format_all_served (calls : list call) :
  Forall served calls ->
  forall ctx, format_all calls ctx = Some {| out := out ctx ++ texts_of calls |}.
Proof.
  induction 1 as [|c rest Hc _ IH]; intros ctx; simpl.
  - rewrite append_nil_r. now destruct ctx.
  - rewrite (format_call_served ctx Hc), IH. simpl.
    now rewrite append_assoc.
Qed.

(** C1.  For every class type [T] that is not convertible to a string view
    and has a stream insertion (one that takes the value as [const T&], which
    is what the requires-clause probes), formatting a value of [T] through the
    header's formatter produces exactly the text that writing the value
    directly to a stream and capturing the result produces; formatting into a
    context that already holds text appends that same text. *)
Theorem formatter_text_is_streamed_text (T : cpp_type) (value : object T) :
  is_class_v T = true ->
  convertible_to_string_view T = false ->
  insertable T = true ->
  exists text,
    format_with_formatter T value = Some text
    /\ stream_and_capture T value = Some text
    /\ forall ctx,
         format_call (call_of T value) ctx = Some {| out := out ctx ++ text |}.
Proof.
  intros Hclass Hconv Hins.
  assert (Hreq : formatter_requires T = true)
    by (apply formatter_requires_iff; auto).
  destruct (formatter_of_requires T Hreq) as (ins & Hon & Hf).
  exists (str (ins value fresh_ostream)).
  unfold format_with_formatter, stream_and_capture, format_call, call_of.
  cbn [projT1 projT2]. rewrite Hf, Hon.
  repeat split; reflexivity.
Qed.

Lemma formatter_text_is_streamed_text_point :
  is_class_v Point = true
  /\ convertible_to_string_view Point = false
  /\ insertable Point = true
  /\ exists text,
       format_with_formatter Point (3, 4)%Z = Some text
       /\ stream_and_capture Point (3, 4)%Z = Some text
       /\ forall ctx,
            format_call (call_of Point (3, 4)%Z) ctx
            = Some {| out := out ctx ++ text |}.
Proof.
  repeat (split; [reflexivity|]).
  apply (@formatter_text_is_streamed_text Point (3, 4)%Z); reflexivity.
Defined.

(** C2.  The header's formatter matches a type [T] exactly when [T] is a class
    type, is not convertible to a string view, and the stream insertion of a
    [const T&] is well-formed; a type that fails any one of the three is not
    matched. *)
Theorem formatter_matches_iff (T : cpp_type) :
  ((exists f, formatter T char = Some f) <->
   is_class_v T = true
   /\ convertible_to_string_view T = false
   /\ insertable T = true)
  /\ (formatter T char = None <->
      is_class_v T = false
      \/ convertible_to_string_view T = true
      \/ insertable T = false).
Proof.
  split.
  - rewrite <- formatter_requires_iff. split.
    + apply formatter_some_requires.
    + intros Hreq. destruct (formatter_of_requires T Hreq) as (ins & _ & Hf).
      eauto.
  - rewrite formatter_none_iff. unfold formatter_requires.
    rewrite !andb_false_iff, negb_false_iff. tauto.
Qed.

Section RangeFormatKindProperties.

Variable primary_range_format_kind : cpp_type -> Char -> range_format.t.

(** C3.  For every type [T] that satisfies [EigenDerived], that is, exposes a
    [derived()] accessor callable as the concept calls it, the range
    classification of [T] in a [char] context is [disabled], whatever the
    primary template says. *)
Theorem eigen_derived_range_format_disabled (T : cpp_type) :
  EigenDerived T = true ->
  range_format_kind primary_range_format_kind T char = range_format.disabled.
Proof. intros HT. unfold range_format_kind. now rewrite HT. Qed.

(** C6.  The classification is structural: a type [U] with the same
    [derived()] accessor as a matched type is matched too and has its range
    classification disabled, whatever its name, its base classes, its
    category and its other members are. *)
Theorem eigen_derived_is_structural (T U : cpp_type) :
  derived T = Some const_access ->
  derived U = derived T ->
  EigenDerived T = true
  /\ EigenDerived U = true
  /\ range_format_kind primary_range_format_kind T char = range_format.disabled
  /\ range_format_kind primary_range_format_kind U char = range_format.disabled.
Proof.
  intros HT HU.
  assert (ET : EigenDerived T = true) by now apply EigenDerived_iff.
  assert (EU : EigenDerived U = true) by (apply EigenDerived_iff; congruence).
  unfold range_format_kind. rewrite ET, EU. auto.
Qed.

(** C9.  The specialization is for [char] only: in every other character
    context the range classification of every type, matched by
    [EigenDerived] or not, is the primary template's. *)
Theorem range_format_kind_other_char (T : cpp_type) (C : Char) :
  C <> char ->
  range_format_kind primary_range_format_kind T C = primary_range_format_kind T C.
Proof. destruct C; simpl; congruence. Qed.

(** C10.  Both rules ask for const access.  A type is [EigenDerived] only if
    its [derived()] is callable on a [const T&], and the formatter matches
    only if the stream insertion takes a [const T&]; a type whose [derived()]
    or insertion works on mutable objects only is left to the primary
    template, respectively gets no formatter from the header. *)
Theorem const_access_required (T : cpp_type) :
  (EigenDerived T = true -> derived T = Some const_access)
  /\ ((exists f, formatter T char = Some f) ->
      exists ins, stream_insertion T = Some (const_access, ins))
  /\ (derived T = Some mutable_only ->
      EigenDerived T = false
      /\ forall C, range_format_kind primary_range_format_kind T C = primary_range_format_kind T C)
  /\ (forall ins,
        stream_insertion T = Some (mutable_only, ins) ->
        formatter_requires T = false /\ forall C, formatter T C = None).
Proof.
  repeat split.
  - apply EigenDerived_iff.
  - intros Hf. apply formatter_some_requires, formatter_requires_iff in Hf.
    destruct Hf as (_ & _ & Hins). unfold insertable in Hins.
    destruct (insertion_on_const T) as [ins|] eqn:Hon; [|discriminate].
    exists ins. now apply insertion_on_const_iff.
  - unfold EigenDerived. now rewrite H.
  - intros C. unfold range_format_kind, EigenDerived. rewrite H.
    now destruct C.
  - unfold formatter_requires, insertable, insertion_on_const. rewrite H.
    simpl. apply andb_false_r.
  - intros C. destruct C; try reflexivity.
    apply formatter_none_iff.
    unfold formatter_requires, insertable, insertion_on_const. rewrite H.
    simpl. apply andb_false_r.
Qed.

End RangeFormatKindProperties.

Section HostProperties.

Variable primary_range_format_kind : cpp_type -> Char -> range_format.t.
Variable builtin_formatters : cpp_type -> list builtin.
Variable builtin_format : forall T : cpp_type, builtin -> object T -> String.string.

(** The header never adds the range formatter to the candidates: with the
    header the range formatter matches only where it matched before. *)
Lemma range_rules_with_header (T : cpp_type) :
  range_rules (range_format_kind primary_range_format_kind T char)
  = if EigenDerived T then []
    else range_rules (primary_range_format_kind T char).
Proof. unfold range_format_kind. now destruct (EigenDerived T). Qed.

(** Where the header's formatter does not match, a native formatter that was
    selected before is selected still. *)
Lemma unmatched_keeps_builtin (T : cpp_type) (b : builtin) :
  formatter T char = None ->
  selected_without_header primary_range_format_kind builtin_formatters T
  = selected (builtin_rule b) ->
  selected_formatter primary_range_format_kind builtin_formatters T
  = selected (builtin_rule b).
Proof.
  unfold selected_without_header, selected_formatter.
  unfold matching_without_header, matching.
  intros ->. rewrite range_rules_with_header, app_nil_r.
  destruct (builtin_formatters T) as [|b0 [|b1 bs]]; simpl.
  - unfold range_rules.
    destruct (range_format.is_disabled _); simpl; discriminate.
  - unfold range_rules.
    destruct (range_format.is_disabled _); simpl; [|discriminate].
    now destruct (EigenDerived T).
  - discriminate.
Qed.

(** Where the header's formatter does not match, the header brings no
    ambiguity that was not there before. *)
Lemma unmatched_adds_no_ambiguity (T : cpp_type) :
  formatter T char = None ->
  selected_formatter primary_range_format_kind builtin_formatters T = ambiguous ->
  selected_without_header primary_range_format_kind builtin_formatters T
  = ambiguous.
Proof.
  unfold selected_without_header, selected_formatter.
  unfold matching_without_header, matching.
  intros ->. rewrite range_rules_with_header, app_nil_r.
  destruct (builtin_formatters T) as [|b0 [|b1 bs]]; simpl.
  - destruct (EigenDerived T); [discriminate|].
    unfold range_rules. destruct (range_format.is_disabled _); discriminate.
  - destruct (EigenDerived T); [discriminate|trivial].
  - trivial.
Qed.

(** C4.  For a string-like type, a class type convertible to a string view,
    the header's formatter does not apply.  So the native formatter that fmt
    selects for it without the header, the string formatter, remains the one
    selected, and an ambiguity arises with the header only where there was
    one without it. *)
Theorem string_like_not_matched (T : cpp_type) :
  is_class_v T = true ->
  convertible_to_string_view T = true ->
  formatter_requires T = false
  /\ formatter T char = None
  /\ (forall b,
        selected_without_header primary_range_format_kind builtin_formatters T
        = selected (builtin_rule b) ->
        selected_formatter primary_range_format_kind builtin_formatters T
        = selected (builtin_rule b))
  /\ (selected_formatter primary_range_format_kind builtin_formatters T
      = ambiguous ->
      selected_without_header primary_range_format_kind builtin_formatters T
      = ambiguous).
Proof.
  intros _ Hconv.
  assert (Hreq : formatter_requires T = false).
  { unfold formatter_requires. rewrite Hconv. simpl. now rewrite andb_false_r. }
  assert (Hnone : formatter T char = None) by now apply formatter_none_iff.
  repeat split; trivial.
  - intros b. now apply unmatched_keeps_builtin.
  - now apply unmatched_adds_no_ambiguity.
Qed.

(** C5.  For a primitive numeric type, an arithmetic type, which is not a
    class, the header's formatter does not apply.  So the native formatter
    that fmt selects for it without the header is still the one selected, and
    an ambiguity arises with the header only where there was one without
    it. *)
Theorem arithmetic_not_matched (T : cpp_type) :
  category T = arithmetic_type ->
  is_class_v T = false
  /\ formatter_requires T = false
  /\ formatter T char = None
  /\ (forall b,
        selected_without_header primary_range_format_kind builtin_formatters T
        = selected (builtin_rule b) ->
        selected_formatter primary_range_format_kind builtin_formatters T
        = selected (builtin_rule b))
  /\ (selected_formatter primary_range_format_kind builtin_formatters T
      = ambiguous ->
      selected_without_header primary_range_format_kind builtin_formatters T
      = ambiguous).
Proof.
  intros Hcat.
  assert (Hclass : is_class_v T = false) by (unfold is_class_v; now rewrite Hcat).
  assert (Hreq : formatter_requires T = false).
  { unfold formatter_requires. now rewrite Hclass. }
  assert (Hnone : formatter T char = None) by now apply formatter_none_iff.
  repeat split; trivial.
  - intros b. now apply unmatched_keeps_builtin.
  - now apply unmatched_adds_no_ambiguity.
Qed.

(** X2.  A type that both rules of the header match and fmt has no native
    formatter for is formatted by the header's formatter, to the text its
    stream insertion writes, whatever the primary range classification is. *)
Lemma eigen_like_formats_as_streamed (T : cpp_type) (value : object T) :
  EigenDerived T = true ->
  formatter_requires T = true ->
  builtin_formatters T = [] ->
  selected_formatter primary_range_format_kind builtin_formatters T
  = selected ostream_rule
  /\ format primary_range_format_kind builtin_formatters builtin_format T value
     = stream_and_capture T value.
Proof.
  intros HE Hreq Hnone.
  destruct (formatter_of_requires T Hreq) as (ins & Hon & Hf).
  assert (Hsel : selected_formatter primary_range_format_kind
                   builtin_formatters T = selected ostream_rule).
  { unfold selected_formatter, matching.
    rewrite Hnone, range_rules_with_header, HE, Hf. reflexivity. }
  split; [exact Hsel|].
  unfold format. rewrite Hsel. simpl.
  unfold format_with_formatter, stream_and_capture. now rewrite Hf, Hon.
Qed.

(** C7.  The stand-in matrix type has [derived()], [begin()]/[end()] and an
    [operator<<] that prints a grid.  Provided fmt has no native formatter
    for it, the 2x2 identity formats to the two-line grid the stream operator
    writes, through the header's formatter, and not to the bracketed sequence
    of its coefficients, whatever the primary range classification is. *)
Theorem matrix_formats_as_grid :
  builtin_formatters Matrix = [] ->
  selected_formatter primary_range_format_kind builtin_formatters Matrix
  = selected ostream_rule
  /\ format primary_range_format_kind builtin_formatters builtin_format
       Matrix identity2
     = Some ("1 0" ++ endl ++ "0 1")
  /\ stream_and_capture Matrix identity2 = Some ("1 0" ++ endl ++ "0 1")
  /\ range_text Matrix identity2 = "[1, 0, 0, 1]"
  /\ format primary_range_format_kind builtin_formatters builtin_format
       Matrix identity2
     <> Some (range_text Matrix identity2).
Proof.
  intros Hnone.
  assert (Hsel : selected_formatter primary_range_format_kind
                   builtin_formatters Matrix = selected ostream_rule).
  { unfold selected_formatter, matching. rewrite Hnone.
    rewrite range_rules_with_header. reflexivity. }
  unfold format. rewrite Hsel.
  repeat split; try reflexivity. discriminate.
Qed.

(** Without the header, and with fmt classifying the type as a sequence, the
    same value formats to the bracketed sequence. *)
Lemma matrix_without_header :
  builtin_formatters Matrix = [] ->
  primary_range_format_kind Matrix char = range_format.sequence ->
  format_without_header primary_range_format_kind builtin_formatters
    builtin_format Matrix identity2
  = Some "[1, 0, 0, 1]".
Proof.
  intros Hnone Hseq.
  unfold format_without_header, selected_without_header, matching_without_header.
  rewrite Hnone, Hseq. reflexivity.
Qed.

End HostProperties.

(** C8.  The header's formatter keeps no state between calls.  Whatever was
    formatted before, in between and after, and whatever text the context
    already holds, a request contributes the text it produces on its own:
    formatting the same value twice, with other values interleaved, writes the
    same text both times. *)
Theorem formatter_is_stateless (c : call) (before between after : list call)
    (ctx : format_context) :
  served c ->
  Forall served before ->
  Forall served between ->
  Forall served after ->
  format_call c ctx = Some {| out := out ctx ++ text_of c |}
  /\ format_all (before ++ c :: between ++ c :: after) ctx
     = Some {| out := out ctx
                      ++ texts_of before ++ text_of c
                      ++ texts_of between ++ text_of c
                      ++ texts_of after |}.
Proof.
  intros Hc Hbefore Hbetween Hafter. split.
  - now apply format_call_served.
  - rewrite format_all_served.
    + rewrite texts_of_app. simpl. rewrite texts_of_app. reflexivity.
    + apply Forall_app. split; [assumption|].
      constructor; [assumption|].
      apply Forall_app. split; [assumption|].
      constructor; assumption.
Qed.

(** ** The properties at the example types *)

Lemma eigen_derived_range_format_disabled_matrix :
  EigenDerived Matrix = true
  /\ fmt_range_format_kind Matrix char = range_format.sequence
  /\ range_format_kind fmt_range_format_kind Matrix char = range_format.disabled.
Proof.
  do 2 (split; [reflexivity|]).
  apply eigen_derived_range_format_disabled. reflexivity.
Defined.

Lemma eigen_derived_is_structural_widget :
  derived Matrix = Some const_access
  /\ derived Widget = derived Matrix
  /\ bases Matrix = ["MatrixBase<Matrix>"]
  /\ bases Widget = []
  /\ EigenDerived Matrix = true
  /\ EigenDerived Widget = true
  /\ range_format_kind fmt_range_format_kind Matrix char = range_format.disabled
  /\ range_format_kind fmt_range_format_kind Widget char = range_format.disabled.
Proof.
  do 4 (split; [reflexivity|]).
  apply eigen_derived_is_structural; reflexivity.
Defined.

Lemma range_format_kind_other_char_matrix :
  EigenDerived Matrix = true
  /\ wchar_t <> char
  /\ range_format_kind fmt_range_format_kind Matrix wchar_t
     = fmt_range_format_kind Matrix wchar_t.
Proof.
  split; [reflexivity|]. split; [discriminate|].
  apply range_format_kind_other_char. discriminate.
Defined.

Lemma string_like_not_matched_std_string :
  is_class_v std_string = true
  /\ convertible_to_string_view std_string = true
  /\ insertable std_string = true
  /\ selected_without_header fmt_range_format_kind fmt_builtin_formatters
       std_string
     = selected (builtin_rule string_formatter)
  /\ formatter std_string char = None
  /\ selected_formatter fmt_range_format_kind fmt_builtin_formatters std_string
     = selected (builtin_rule string_formatter).
Proof.
  do 4 (split; [reflexivity|]).
  destruct (@string_like_not_matched fmt_range_format_kind
              fmt_builtin_formatters std_string eq_refl eq_refl)
    as (_ & Hnone & Hkeep & _).
  split; [exact Hnone | apply Hkeep; reflexivity].
Defined.

Lemma arithmetic_not_matched_int :
  category int = arithmetic_type
  /\ insertable int = true
  /\ selected_without_header fmt_range_format_kind fmt_builtin_formatters int
     = selected (builtin_rule arithmetic_formatter)
  /\ is_class_v int = false
  /\ formatter int char = None
  /\ selected_formatter fmt_range_format_kind fmt_builtin_formatters int
     = selected (builtin_rule arithmetic_formatter).
Proof.
  do 3 (split; [reflexivity|]).
  destruct (@arithmetic_not_matched fmt_range_format_kind
              fmt_builtin_formatters int eq_refl)
    as (Hclass & _ & Hnone & Hkeep & _).
  split; [exact Hclass|].
  split; [exact Hnone | apply Hkeep; reflexivity].
Defined.

Lemma matrix_formats_as_grid_fmt :
  fmt_builtin_formatters Matrix = []
  /\ selected_formatter fmt_range_format_kind fmt_builtin_formatters Matrix
     = selected ostream_rule
  /\ format fmt_range_format_kind fmt_builtin_formatters fmt_builtin_format
       Matrix identity2
     = Some ("1 0" ++ endl ++ "0 1")
  /\ stream_and_capture Matrix identity2 = Some ("1 0" ++ endl ++ "0 1")
  /\ range_text Matrix identity2 = "[1, 0, 0, 1]"
  /\ format fmt_range_format_kind fmt_builtin_formatters fmt_builtin_format
       Matrix identity2
     <> Some (range_text Matrix identity2).
Proof.
  split; [reflexivity|].
  apply matrix_formats_as_grid. reflexivity.
Defined.

Lemma formatter_is_stateless_point :
  format_call (call_of Point (10, 11)%Z) {| out := "p=" |}
  = Some {| out := "p=(10, 11)" |}
  /\ format_all
       [call_of HexId 255%Z; call_of Point (10, 11)%Z;
        call_of HexId 16%Z; call_of Matrix identity2; call_of Point (10, 11)%Z]
       {| out := "p=" |}
     = Some {| out := "p=ff(10, 11)101 0" ++ endl ++ "0 1(10, 11)" |}.
Proof.
  apply (@formatter_is_stateless
           (call_of Point (10, 11)%Z)
           [call_of HexId 255%Z]
           [call_of HexId 16%Z; call_of Matrix identity2]
           []
           {| out := "p=" |});
    repeat constructor.
Defined.

(** The scenario of the spec: a point with [x = 3] and [y = 4], whose stream
    operator writes the coordinates in parentheses, formats to ["(3, 4)"]. *)
Example point_formats_as_written :
  format_with_formatter Point (3, 4)%Z = Some "(3, 4)".
Proof. reflexivity. Qed.

Lemma formatter_other_char_point :
  wchar_t <> char
  /\ formatter_requires Point = true
  /\ formatter Point wchar_t = None.
Proof.
  split; [discriminate|]. split; [reflexivity|].
  apply formatter_other_char. discriminate.
Defined.

Lemma eigen_like_formats_as_streamed_matrix :
  EigenDerived Matrix = true
  /\ formatter_requires Matrix = true
  /\ fmt_builtin_formatters Matrix = []
  /\ selected_formatter fmt_range_format_kind fmt_builtin_formatters Matrix
     = selected ostream_rule
  /\ format fmt_range_format_kind fmt_builtin_formatters fmt_builtin_format
       Matrix [[2; 0; 0]; [0; -3; 0]]%Z
     = stream_and_capture Matrix [[2; 0; 0]; [0; -3; 0]]%Z.
Proof.
  do 3 (split; [reflexivity|]).
  apply eigen_like_formats_as_streamed; reflexivity.
Defined.

(** On one shared stream the hexadecimal mode that [HexId] leaves behind
    changes what the next value prints; through the formatter it does not. *)
Example shared_stream_keeps_state :
  option_map str
    (insert_all [call_of HexId 255%Z; call_of Point (10, 11)%Z] fresh_ostream)
  = Some "ff(a, b)"
  /\ option_map out
       (format_all [call_of HexId 255%Z; call_of Point (10, 11)%Z] {| out := "" |})
     = Some "ff(10, 11)".
Proof. split; reflexivity. Qed.

(** A type with a non-const [derived()] and an insertion for [Legacy&] only
    is matched by neither rule: fmt's own classification and selection
    stand. *)
Example legacy_matched_by_neither :
  EigenDerived Legacy = false
  /\ formatter Legacy char = None
  /\ range_format_kind fmt_range_format_kind Legacy char = range_format.sequence
  /\ selected_formatter fmt_range_format_kind fmt_builtin_formatters Legacy
     = selected range_rule.
Proof. repeat split; reflexivity. Qed.

(** * The effect of the header on fmt as a whole *)

(** X1.  The specialization changes the range classification of a type only
    in the [char] context and only for a type matched by [EigenDerived]:
    everywhere else the classification is the primary template's, and where
    it changes it becomes [disabled]; the header never turns a range format
    on. *)
Theorem range_format_kind_frame
    (primary_range_format_kind : cpp_type -> Char -> range_format.t)
    (T : cpp_type) (C : Char) :
  (EigenDerived T = false ->
   range_format_kind primary_range_format_kind T C
   = primary_range_format_kind T C)
  /\ (range_format_kind primary_range_format_kind T C
      = primary_range_format_kind T C
      \/ range_format_kind primary_range_format_kind T C
         = range_format.disabled)
  /\ (range_format_kind primary_range_format_kind T C
      <> primary_range_format_kind T C ->
      C = char /\ EigenDerived T = true).
Proof.
  unfold range_format_kind.
  destruct C, (EigenDerived T); repeat split; auto; congruence.
Qed.

Section HeaderEffect.

Variable primary_range_format_kind : cpp_type -> Char -> range_format.t.
Variable builtin_formatters : cpp_type -> list builtin.
Variable builtin_format : forall T : cpp_type, builtin -> object T -> String.string.

(** The candidate the header's formatter contributes. *)
Lemma ostream_candidate (T : cpp_type) :
  match formatter T char with
  | Some _ => [ostream_rule]
  | None => []
  end
  = if formatter_requires T then [ostream_rule] else [].
Proof.
  destruct (formatter_requires T) eqn:Hreq.
  - destruct (formatter_of_requires T Hreq) as (ins & _ & ->). reflexivity.
  - apply formatter_none_iff in Hreq. now rewrite Hreq.
Qed.

Lemma matching_unfold (T : cpp_type) :
  matching primary_range_format_kind builtin_formatters T
  = (List.map builtin_rule (builtin_formatters T)
     ++ (if EigenDerived T then []
         else range_rules (primary_range_format_kind T char))
     ++ (if formatter_requires T then [ostream_rule] else []))%list.
Proof.
  unfold matching. now rewrite range_rules_with_header, ostream_candidate.
Qed.

(** X3.  A type that is not a class (an enumeration, a union, a pointer, an
    arithmetic type) gets no formatter from the header in any character
    context, also when it has a stream operator: the header's formatter is
    not among the candidates, and a native formatter selected without the
    header stays selected. *)
Theorem non_class_never_matched (T : cpp_type) :
  is_class_v T = false ->
  (forall C, formatter T C = None)
  /\ ~ In ostream_rule (matching primary_range_format_kind builtin_formatters T)
  /\ (forall b,
        selected_without_header primary_range_format_kind builtin_formatters T
        = selected (builtin_rule b) ->
        selected_formatter primary_range_format_kind builtin_formatters T
        = selected (builtin_rule b)).
Proof.
  intros Hclass.
  assert (Hreq : formatter_requires T = false).
  { unfold formatter_requires. now rewrite Hclass. }
  assert (Hnone : formatter T char = None) by now apply formatter_none_iff.
  repeat split.
  - intros C. destruct C; trivial.
  - rewrite matching_unfold, Hreq, app_nil_r. intros Hin.
    apply in_app_or in Hin. destruct Hin as [Hin|Hin].
    + apply in_map_iff in Hin. destruct Hin as (b & Hb & _). discriminate.
    + destruct (EigenDerived T); [contradiction|].
      unfold range_rules in Hin.
      destruct (range_format.is_disabled _); simpl in Hin;
        [contradiction | destruct Hin; [discriminate | contradiction]].
  - intros b. now apply unmatched_keeps_builtin.
Qed.


(** X5.  The range rule does not ask for a stream operator.  A type matched
    by [EigenDerived] that the header's formatter does not match and fmt has
    no native formatter for is left with no formatter at all, although
    without the header it was formatted as a range wherever fmt classified it
    as one. *)
Theorem range_suppressed_without_formatter (T : cpp_type) :
  EigenDerived T = true ->
  formatter_requires T = false ->
  builtin_formatters T = [] ->
  matching primary_range_format_kind builtin_formatters T = []
  /\ (forall value,
        format primary_range_format_kind builtin_formatters builtin_format
          T value
        = None)
  /\ (range_format.is_disabled (primary_range_format_kind T char) = false ->
      forall value,
        format_without_header primary_range_format_kind builtin_formatters
          builtin_format T value
        = Some (range_text T value)).
Proof.
  intros HE Hreq Hnone.
  assert (Hm : matching primary_range_format_kind builtin_formatters T = []).
  { rewrite matching_unfold, HE, Hreq, Hnone. reflexivity. }
  repeat split.
  - exact Hm.
  - intros value. unfold format, selected_formatter. now rewrite Hm.
  - intros Hrange value.
    unfold format_without_header, selected_without_header.
    unfold matching_without_header, range_rules.
    now rewrite Hnone, Hrange.
Qed.

(** X6.  The requires-clause of the formatter does not look at ranges.  For a
    class type with a stream operator that fmt classifies as a range and that
    has no [derived()], the range formatter and the header's formatter both
    match; with no native formatter they are the two candidates. *)
Theorem formatter_does_not_exclude_ranges (T : cpp_type) :
  formatter_requires T = true ->
  EigenDerived T = false ->
  range_format.is_disabled (primary_range_format_kind T char) = false ->
  In range_rule (matching primary_range_format_kind builtin_formatters T)
  /\ In ostream_rule (matching primary_range_format_kind builtin_formatters T)
  /\ (builtin_formatters T = [] ->
      matching primary_range_format_kind builtin_formatters T
      = [range_rule; ostream_rule]).
Proof.
  intros Hreq HE Hrange.
  rewrite matching_unfold, Hreq, HE. unfold range_rules. rewrite Hrange.
  repeat split.
  - apply in_or_app. right. simpl. auto.
  - apply in_or_app. right. simpl. auto.
  - intros ->. reflexivity.
Qed.

(** X7.  What the header is for: a class type with a stream operator that
    fmt neither formats natively nor classifies as a range has no formatter
    without the header, and with the header is formatted by the header's
    formatter, to the text its stream operator writes. *)
Theorem streamable_class_restored (T : cpp_type) (value : object T) :
  formatter_requires T = true ->
  builtin_formatters T = [] ->
  range_format.is_disabled (primary_range_format_kind T char) = true ->
  selected_without_header primary_range_format_kind builtin_formatters T
  = no_formatter
  /\ format_without_header primary_range_format_kind builtin_formatters
       builtin_format T value
     = None
  /\ selected_formatter primary_range_format_kind builtin_formatters T
     = selected ostream_rule
  /\ format primary_range_format_kind builtin_formatters builtin_format T value
     = stream_and_capture T value
  /\ exists text, stream_and_capture T value = Some text.
Proof.
  intros Hreq Hnone Hrange.
  destruct (formatter_of_requires T Hreq) as (ins & Hon & Hf).
  assert (Hwithout : selected_without_header primary_range_format_kind
                       builtin_formatters T = no_formatter).
  { unfold selected_without_header, matching_without_header, range_rules.
    now rewrite Hnone, Hrange. }
  assert (Hwith : selected_formatter primary_range_format_kind
                    builtin_formatters T = selected ostream_rule).
  { unfold selected_formatter. rewrite matching_unfold, Hreq, Hnone.
    unfold range_rules. rewrite Hrange. now destruct (EigenDerived T). }
  repeat split.
  - exact Hwithout.
  - unfold format_without_header. now rewrite Hwithout.
  - exact Hwith.
  - unfold format. rewrite Hwith. simpl.
    unfold format_with_formatter, stream_and_capture. now rewrite Hf, Hon.
  - unfold stream_and_capture. rewrite Hon. eauto.
Qed.

End HeaderEffect.

Lemma non_class_never_matched_color :
  is_class_v Color = false
  /\ insertable Color = true
  /\ (forall C, formatter Color C = None)
  /\ selected_formatter fmt_range_format_kind fmt_builtin_formatters Color
     = no_formatter.
Proof.
  do 2 (split; [reflexivity|]).
  split; [|reflexivity].
  apply (@non_class_never_matched fmt_range_format_kind
           fmt_builtin_formatters Color eq_refl).
Defined.

Lemma range_suppressed_without_formatter_coefficients :
  EigenDerived Coefficients = true
  /\ formatter_requires Coefficients = false
  /\ fmt_builtin_formatters Coefficients = []
  /\ format fmt_range_format_kind fmt_builtin_formatters fmt_builtin_format
       Coefficients [2; 3]%Z
     = None
  /\ format_without_header fmt_range_format_kind fmt_builtin_formatters
       fmt_builtin_format Coefficients [2; 3]%Z
     = Some "[2, 3]".
Proof.
  do 3 (split; [reflexivity|]).
  destruct (@range_suppressed_without_formatter fmt_range_format_kind
              fmt_builtin_formatters fmt_builtin_format Coefficients
              eq_refl eq_refl eq_refl)
    as (_ & Hwith & Hwithout).
  split; [apply Hwith | apply Hwithout; reflexivity].
Defined.

Lemma formatter_does_not_exclude_ranges_polyline :
  formatter_requires Polyline = true
  /\ EigenDerived Polyline = false
  /\ fmt_range_format_kind Polyline char = range_format.sequence
  /\ matching_without_header fmt_range_format_kind fmt_builtin_formatters
       Polyline
     = [range_rule]
  /\ matching fmt_range_format_kind fmt_builtin_formatters Polyline
     = [range_rule; ostream_rule].
Proof.
  do 4 (split; [reflexivity|]).
  apply (@formatter_does_not_exclude_ranges fmt_range_format_kind
           fmt_builtin_formatters Polyline eq_refl eq_refl eq_refl).
  reflexivity.
Defined.

Lemma streamable_class_restored_point :
  formatter_requires Point = true
  /\ fmt_builtin_formatters Point = []
  /\ fmt_range_format_kind Point char = range_format.disabled
  /\ format_without_header fmt_range_format_kind fmt_builtin_formatters
       fmt_builtin_format Point (3, 4)%Z
     = None
  /\ format fmt_range_format_kind fmt_builtin_formatters fmt_builtin_format
       Point (3, 4)%Z
     = Some "(3, 4)".
Proof.
  do 3 (split; [reflexivity|]).
  destruct (@streamable_class_restored fmt_range_format_kind
              fmt_builtin_formatters fmt_builtin_format Point (3, 4)%Z
              eq_refl eq_refl eq_refl)
    as (_ & Hwithout & _ & Hwith & _).
  split; [exact Hwithout | exact Hwith].
Defined.
